(** * Project configuration management: model and properties

    A shallow embedding of [firebase_admin/project_config_mgt.py]:
    the [ProjectConfig] snapshot with its two accessors, and the
    [_ProjectConfigManagementService] with its constructor and its two
    operations ([get_project_config], [update_project_config]).

    Python values are modelled as a tree of JSON-like data, dictionaries as
    insertion-ordered association lists, exceptions as an error result, and
    the HTTP client as an oracle whose invocations are recorded in a log that
    is threaded through the service operations. *)

From Stdlib Require Import Ascii String List ZArith Bool Lia Sorted.
From Stdlib Require Import Floats.SpecFloat.
Import ListNotations.

Local Open Scope string_scope.
Local Open Scope list_scope.

Set Warnings "-register-all".

(** ** Python values *)

(** The values a decoded JSON body (or a request payload) is made of. *)
Inductive pyvalue : Type :=
| PNone
| PBool (b : bool)
| PInt (n : Z)
| PFloat (x : spec_float)
| PStr (s : string)
| PList (items : list pyvalue)
| PDict (entries : list (string * pyvalue)).

(** A [dict] with string keys: entries in insertion order. *)
Definition pydict : Type := list (string * pyvalue).

(** [bool(v)]: the truth value Python's [if v:] tests. *)
Definition truthy (v : pyvalue) : bool :=
  match v with
  | PNone => false
  | PBool b => b
  | PInt n => negb (n =? 0)%Z
  | PFloat (S754_zero _) => false
  | PFloat _ => true
  | PStr EmptyString => false
  | PStr _ => true
  | PList [] => false
  | PList _ => true
  | PDict [] => false
  | PDict _ => true
  end.

(** [isinstance(v, dict)], returning the mapping when it is one. *)
Definition as_dict (v : pyvalue) : option pydict :=
  match v with
  | PDict d => Some d
  | _ => None
  end.

Definition isinstance_dict (v : pyvalue) : bool :=
  match as_dict v with Some _ => true | None => false end.

(** The binding of key [k], when there is one. *)
Fixpoint dict_lookup (d : pydict) (k : string) : option pyvalue :=
  match d with
  | [] => None
  | (k', v) :: rest => if String.eqb k' k then Some v else dict_lookup rest k
  end.

(** [d.get(k)]: the bound value, [None] for a missing key. *)
Definition dict_get (d : pydict) (k : string) : pyvalue :=
  match dict_lookup d k with
  | Some v => v
  | None => PNone
  end.

(** [d[k] = v]: an existing key keeps its position, a new key goes last. *)
Fixpoint dict_setitem (d : pydict) (k : string) (v : pyvalue) : pydict :=
  match d with
  | [] => [(k, v)]
  | (k', v') :: rest =>
      if String.eqb k' k then (k, v) :: rest
      else (k', v') :: dict_setitem rest k v
  end.

(** [list(d)]: the keys in iteration (insertion) order. *)
Definition dict_keys (d : pydict) : list string := map fst d.

(** [sep.join(parts)]. *)
Definition str_join (sep : string) (parts : list string) : string :=
  String.concat sep parts.

(** ** Exceptions *)

(** Either a returned value or a raised exception. *)
Inductive except (E A : Type) : Type :=
| Ok (a : A)
| Raise (e : E).

Arguments Ok {E A} a.
Arguments Raise {E A} e.

(** A [ValueError] instance: its message template and the values handed to
    [str.format] for the template's placeholders (none for a literal
    message). *)
Record value_error : Type := ValueErrorOf {
  message : string;
  format_args : list pyvalue
}.

(** ** The snapshot: class [ProjectConfig] *)

(** Modelled from the spec: the class [MultiFactorServerConfig] of
    [multi_factor_config_mgt] is not part of the module; it is the read-only
    server-config view constructed from the nested value. *)
Record MultiFactorServerConfig : Type := MultiFactorServerConfigOf {
  mfa_view_data : pyvalue
}.

(** Modelled from the spec: the class [EmailPrivacyServerConfig] of
    [email_privacy_config_mgt] is not part of the module; it is the read-only
    server-config view constructed from the nested value. *)
Record EmailPrivacyServerConfig : Type := EmailPrivacyServerConfigOf {
  email_view_data : pyvalue
}.

Module ProjectConfig.

(** An instance: the attribute [self._data]. *)
Record t : Type := Make { _data : pydict }.

(** [ProjectConfig(data)]. *)
Definition __init__ (data : pyvalue) : except value_error t :=
  match as_dict data with
  | None =>
      Raise (ValueErrorOf
               "Invalid data argument in Project constructor: {0}" [data])
  | Some d => Ok (Make d)
  end.

(** A property body runs against [self]: it returns its result together
    with the instance as the body leaves it. *)
Definition method (A : Type) : Type := t -> A * t.

Definition mret {A : Type} (a : A) : method A := fun self => (a, self).

Definition mbind {A B : Type} (m : method A) (k : A -> method B) : method B :=
  fun self => let (a, self') := m self in k a self'.

(** Reading [self._data.get(key)]. *)
Definition self_data_get (key : string) : method pyvalue :=
  fun self => (dict_get (_data self) key, self).

(** The property [multi_factor_config]. *)
Definition multi_factor_config : method (option MultiFactorServerConfig) :=
  mbind (self_data_get "mfa") (fun data =>
    if truthy data then mret (Some (MultiFactorServerConfigOf data))
    else mret None).

(** The property [email_privacy_config]. *)
Definition email_privacy_config : method (option EmailPrivacyServerConfig) :=
  mbind (self_data_get "emailPrivacyConfig") (fun data =>
    if truthy data then mret (Some (EmailPrivacyServerConfigOf data))
    else mret None).

(** Reading a property [n] times in a row: the results, first read first,
    and the instance after the last read. *)
Fixpoint read_times {A : Type} (n : nat) (m : method A) (self : t)
  : list A * t :=
  match n with
  | O => ([], self)
  | S n' =>
      let (a, self') := m self in
      let (rest, self'') := read_times n' m self' in
      (a :: rest, self'')
  end.

End ProjectConfig.

(** ** Collaborators of the service *)

(** Modelled from the spec: the classes [MultiFactorConfig] and
    [EmailPrivacyConfig] are not part of the module; each can validate itself
    and produce its server-ready fragment.  This is the interface the service
    uses of them, [obj.build_server_request()]: the call either returns the
    fragment or raises the [ValueError] that [update_project_config]
    documents for invalid arguments. *)
Class ServerRequest (A : Type) : Type :=
  build_server_request : A -> except value_error pyvalue.

(** One invocation of [JsonHttpClient.body(method, url=..., json=...,
    params=...)]; an omitted keyword is [None]. *)
Record request : Type := Request {
  req_method : string;
  req_url : string;
  req_json : option pydict;
  req_params : option string
}.

(** [sorted(names)] on strings: ascending by code point. *)
Fixpoint insert_sorted (x : string) (names : list string) : list string :=
  match names with
  | [] => [x]
  | y :: rest =>
      if String.leb x y then x :: names else y :: insert_sorted x rest
  end.

Definition sorted (names : list string) : list string :=
  fold_right insert_sorted [] names.

(** The paths one item of a mapping adds to an update mask, given the mask
    [child_mask] of its value when that value is a mapping:
    ['{0}.{1}'.format(key, child)] for every child, else the key itself. *)
Definition field_paths (key : string) (child_mask : option (list string))
  : list string :=
  match child_mask with
  | Some children => map (fun child => (key ++ "." ++ child)%string) children
  | None => [key]
  end.

(** [_auth_utils.build_update_mask(params)], a helper of the library that is
    not part of the module, as a function of any value ([params] is a
    mapping): the items are walked in order, an item whose value is a
    mapping adds one dotted path per entry of the mask of that value, any
    other item adds its key, and the list is returned sorted. *)
Fixpoint update_mask_of (params : pyvalue) : list string :=
  match params with
  | PDict items =>
      sorted
        ((fix walk (items : list (string * pyvalue)) : list string :=
            match items with
            | [] => []
            | (key, value) :: rest =>
                field_paths key
                  match value with
                  | PDict _ => Some (update_mask_of value)
                  | _ => None
                  end
                ++ walk rest
            end) items)
  | _ => []
  end.

Definition build_update_mask (payload : pydict) : list string :=
  update_mask_of (PDict payload).

(** The mask an item's value has, when the value is a mapping. *)
Definition child_mask_of (value : pyvalue) : option (list string) :=
  match value with
  | PDict nested => Some (build_update_mask nested)
  | _ => None
  end.

(** Modelled from the spec: what one HTTP exchange yields to the client,
    either no response at all (a network failure) or a response with its
    status and its body, decoded as JSON when it can be. *)
Inductive http_exchange : Type :=
| NoResponse
| Response (status : Z) (body : option pyvalue).

(** Modelled from the spec: the [RequestException] a failed exchange makes
    the client raise, a transport failure being a network error, a non-2xx
    status or a malformed response. *)
Inductive transport_error : Type :=
| ConnectionError
| HTTPError (status : Z) (body : option pyvalue)
| InvalidJSONError.

(** The status of the response a transport error carries, if any. *)
Definition error_status (error : transport_error) : option Z :=
  match error with
  | HTTPError status _ => Some status
  | _ => None
  end.

Definition is_2xx (status : Z) : bool :=
  ((200 <=? status) && (status <? 300))%Z.

(** Modelled from the spec: [_http_client.JsonHttpClient.body] over a
    transport, which is not part of the module; the call returns the decoded
    body of a 2xx response and raises for every transport failure. *)
Definition json_http_client_body
  (exchange : list request -> request -> http_exchange)
  : list request -> request -> except transport_error pyvalue :=
  fun calls req =>
    match exchange calls req with
    | NoResponse => Raise ConnectionError
    | Response status body =>
        if is_2xx status then
          match body with
          | Some decoded => Ok decoded
          | None => Raise InvalidJSONError
          end
        else Raise (HTTPError status body)
    end.

(** Concrete collaborators, used to run the service on examples. *)
Module Demo.

(** A multi-factor configuration holding its state. *)
Inductive multi_factor : Type := MultiFactor (state : string).

#[export] Instance multi_factor_request : ServerRequest multi_factor :=
  fun c =>
    match c with
    | MultiFactor EmptyString =>
        Raise (ValueErrorOf "multi factor state must be set." [])
    | MultiFactor state => Ok (PDict [("state", PStr state)])
    end.

(** An email-privacy configuration holding its flag. *)
Inductive email_privacy : Type := EmailPrivacy (improved : bool).

#[export] Instance email_privacy_request : ServerRequest email_privacy :=
  fun c =>
    match c with
    | EmailPrivacy b => Ok (PDict [("enableImprovedEmailPrivacy", PBool b)])
    end.

(** A transport error is the HTTP status it carries; a backend error is
    the name of its kind. *)
Definition handle_auth_backend_error (status : Z) : string :=
  if (status =? 404)%Z then "NOT_FOUND" else "UNKNOWN".

(** A backend error that keeps the kind of the failure and the status of
    the response, when there was one. *)
Record backend_error : Type := BackendErrorOf {
  backend_kind : string;
  backend_status : option Z
}.

Definition handle_transport_error (error : transport_error) : backend_error :=
  match error with
  | HTTPError status _ =>
      BackendErrorOf (if (status =? 404)%Z then "NOT_FOUND" else "UNKNOWN")
        (Some status)
  | _ => BackendErrorOf "UNKNOWN" None
  end.

(** A transport on which every exchange yields the same response. *)
Definition responds (status : Z) (body : option pyvalue)
  : list request -> request -> http_exchange :=
  fun _ _ => Response status body.

(** A backend that answers every request with the same decoded body. *)
Definition answers (body : pyvalue)
  : list request -> request -> except Z pyvalue :=
  fun _ _ => Ok body.

End Demo.

(** ** The service: class [_ProjectConfigManagementService] *)

Module ProjectConfigManagementService.

(** [PROJECT_CONFIG_MGT_URL]. *)
Definition PROJECT_CONFIG_MGT_URL : string :=
  "https://identitytoolkit.googleapis.com/v2/projects".

(** Modelled from the spec: the host application object is not part of the
    module; the constructor reads the credential its provider hands out
    ([app.credential.get_credential()]) and its project id
    ([app.project_id]: a string, or [None] for an application without
    one). *)
Record App (Credential : Type) : Type := AppOf {
  app_credential : Credential;
  project_id : option string
}.

Arguments AppOf {Credential} app_credential project_id.
Arguments app_credential {Credential} _.
Arguments project_id {Credential} _.

(** Modelled from the spec: [_http_client.JsonHttpClient] is not part of the
    module; a client is bound to the credential, the base URL and the
    headers it is constructed with. *)
Record JsonHttpClient (Credential : Type) : Type := JsonHttpClientOf {
  client_credential : Credential;
  base_url : string;
  headers : list (string * string)
}.

Arguments JsonHttpClientOf {Credential} client_credential base_url headers.
Arguments client_credential {Credential} _.
Arguments base_url {Credential} _.
Arguments headers {Credential} _.

(** How [str.format] renders a project id: a string as itself, [None] as
    its name. *)
Definition format_project_id (p : option string) : string :=
  match p with
  | Some s => s
  | None => "None"
  end.

(** An instance of the service: the attributes [self.app] and
    [self.client]. *)
Record t (Credential : Type) : Type := Make {
  app : App Credential;
  client : JsonHttpClient Credential
}.

Arguments Make {Credential} app client.
Arguments app {Credential} _.
Arguments client {Credential} _.

(** [_ProjectConfigManagementService(app)]; [version] stands for
    [firebase_admin.__version__]. *)
Definition __init__ {Credential : Type} (version : string)
  (an_app : App Credential) : t Credential :=
  let credential := app_credential an_app in
  let version_header := ("Python/Admin/" ++ version)%string in
  let the_base_url :=
    (PROJECT_CONFIG_MGT_URL ++ "/" ++ format_project_id (project_id an_app)
       ++ "/config")%string in
  Make an_app
    (JsonHttpClientOf credential the_base_url
       [("X-Client-Version", version_header)]).

Section Service.

Context {MultiFactorConfig EmailPrivacyConfig : Type}.
Context {multi_factor_request : ServerRequest MultiFactorConfig}.
Context {email_privacy_request : ServerRequest EmailPrivacyConfig}.

(** [requests.exceptions.RequestException] instances and the [FirebaseError]
    instances of the backend error taxonomy. *)
Context {request_exception firebase_error : Type}.

(** Modelled from the spec: [_auth_utils.handle_auth_backend_error] is not
    part of the module; it is the shared facility that translates a transport
    error into the backend error to raise. *)
Variable handle_auth_backend_error : request_exception -> firebase_error.

(** Modelled from the spec: [_http_client.JsonHttpClient.body], bound to the
    base URL of the project, is not part of the module; given the
    invocations made so far and the present one, the exchange either returns
    the decoded response body or raises a [RequestException]. *)
Variable client_body :
  list request -> request -> except request_exception pyvalue.

(** What a caller may pass for an optional argument: plain data ([None]
    included) or an instance of one of the two configuration classes. *)
Inductive pyobj : Type :=
| Value (v : pyvalue)
| MultiFactorConfigObj (c : MultiFactorConfig)
| EmailPrivacyConfigObj (c : EmailPrivacyConfig).

(** [o is None]. *)
Definition is_None (o : pyobj) : bool :=
  match o with
  | Value PNone => true
  | _ => false
  end.

(** [isinstance(o, MultiFactorConfig)], returning the instance. *)
Definition as_MultiFactorConfig (o : pyobj) : option MultiFactorConfig :=
  match o with
  | MultiFactorConfigObj c => Some c
  | _ => None
  end.

(** [isinstance(o, EmailPrivacyConfig)], returning the instance. *)
Definition as_EmailPrivacyConfig (o : pyobj) : option EmailPrivacyConfig :=
  match o with
  | EmailPrivacyConfigObj c => Some c
  | _ => None
  end.

(** The exceptions in flight inside the service. *)
Inductive exn : Type :=
| ValueError (e : value_error)
| RequestException (e : request_exception)
| FirebaseError (e : firebase_error).

(** A computation of the service: from the log of client invocations made so
    far to an outcome and the log afterwards. *)
Definition M (A : Type) : Type :=
  list request -> except exn A * list request.

Definition ret {A : Type} (a : A) : M A := fun calls => (Ok a, calls).

Definition raise {A : Type} (e : exn) : M A := fun calls => (Raise e, calls).

Definition bind {A B : Type} (m : M A) (k : A -> M B) : M B :=
  fun calls =>
    match m calls with
    | (Ok a, calls') => k a calls'
    | (Raise e, calls') => (Raise e, calls')
    end.

Notation "x <- m ;; k" := (bind m (fun x => k))
  (at level 61, m at next level, right associativity).

(** A call that may raise [ValueError] and touches nothing else. *)
Definition may_raise {A : Type} (r : except value_error A) : M A :=
  match r with
  | Ok a => ret a
  | Raise e => raise (ValueError e)
  end.

(** [self.client.body(method, url=url, json=json, params=params)]. *)
Definition self_client_body (method url : string) (json : option pydict)
  (params : option string) : M pyvalue :=
  fun calls =>
    let req := Request method url json params in
    match client_body calls req with
    | Ok body => (Ok body, calls ++ [req])
    | Raise error => (Raise (RequestException error), calls ++ [req])
    end.

(** [try: x = body / except RequestException as error: handler / else:
    orelse]: only a [RequestException] of the body is handled, and the
    [else] suite runs outside the handler. *)
Definition try_except_else {A B : Type} (body : M A)
  (handler : request_exception -> M B) (orelse : A -> M B) : M B :=
  fun calls =>
    match body calls with
    | (Ok a, calls') => orelse a calls'
    | (Raise (RequestException error), calls') => handler error calls'
    | (Raise e, calls') => (Raise e, calls')
    end.

(** [get_project_config(self)]. *)
Definition get_project_config : M ProjectConfig.t :=
  try_except_else (self_client_body "get" "" None None)
    (fun error => raise (FirebaseError (handle_auth_backend_error error)))
    (fun body => may_raise (ProjectConfig.__init__ body)).

(** The first part of [update_project_config]: the payload as it stands when
    control reaches the emptiness test. *)
Definition build_payload (multi_factor_config email_privacy_config : pyobj)
  : M pydict :=
  let payload : pydict := [] in
  payload <-
    (if negb (is_None multi_factor_config) then
       match as_MultiFactorConfig multi_factor_config with
       | None =>
           raise (ValueError (ValueErrorOf
             "multi_factor_config must be of type MultiFactorConfig." []))
       | Some c =>
           fragment <- may_raise (build_server_request c) ;;
           ret (dict_setitem payload "mfa" fragment)
       end
     else ret payload) ;;
  payload <-
    (if negb (is_None email_privacy_config) then
       match as_EmailPrivacyConfig email_privacy_config with
       | None =>
           raise (ValueError (ValueErrorOf
             "email_privacy_config must be of type EmailPrivacyConfig." []))
       | Some c =>
           fragment <- may_raise (build_server_request c) ;;
           ret (dict_setitem payload "emailPrivacyConfig" fragment)
       end
     else ret payload) ;;
  ret payload.

(** [update_project_config(self, multi_factor_config, email_privacy_config)];
    an omitted argument is [None]. *)
Definition update_project_config
  (multi_factor_config email_privacy_config : pyobj) : M ProjectConfig.t :=
  payload <- build_payload multi_factor_config email_privacy_config ;;
  if negb (truthy (PDict payload)) then
    raise (ValueError (ValueErrorOf
      "At least one parameter must be specified for update." []))
  else
    let update_mask := str_join "," (build_update_mask payload) in
    let params := ("updateMask=" ++ update_mask)%string in
    try_except_else (self_client_body "patch" "" (Some payload) (Some params))
      (fun error => raise (FirebaseError (handle_auth_backend_error error)))
      (fun body => may_raise (ProjectConfig.__init__ body)).


(** *** Vocabulary of the properties *)

(** The request [get_project_config] issues. *)
Definition get_request : request := Request "get" "" None None.

(** The request [update_project_config] issues for a payload. *)
Definition patch_request (payload : pydict) : request :=
  Request "patch" "" (Some payload)
    (Some ("updateMask=" ++ str_join "," (build_update_mask payload))%string).

(** The three argument errors of [update_project_config]. *)
Definition multi_factor_type_error : value_error :=
  ValueErrorOf "multi_factor_config must be of type MultiFactorConfig." [].

Definition email_privacy_type_error : value_error :=
  ValueErrorOf "email_privacy_config must be of type EmailPrivacyConfig." [].

Definition empty_update_error : value_error :=
  ValueErrorOf "At least one parameter must be specified for update." [].

(** An argument that is supplied (not [None]) and fails its [isinstance]
    test. *)
Definition wrong_multi_factor (o : pyobj) : bool :=
  negb (is_None o) &&
  match as_MultiFactorConfig o with Some _ => false | None => true end.

Definition wrong_email_privacy (o : pyobj) : bool :=
  negb (is_None o) &&
  match as_EmailPrivacyConfig o with Some _ => false | None => true end.

(** *** Properties of the service *)

Lemma build_payload_keeps_log (mfa email : pyobj) (calls : list request) :
  snd (build_payload mfa email calls) = calls.
Proof.
  unfold build_payload, bind, ret, raise, may_raise.
  destruct (is_None mfa); simpl.
  - destruct (is_None email); simpl; [reflexivity|].
    destruct (as_EmailPrivacyConfig email) as [c|]; simpl; [|reflexivity].
    destruct (build_server_request c); reflexivity.
  - destruct (as_MultiFactorConfig mfa) as [c|]; simpl; [|reflexivity].
    destruct (build_server_request c); simpl; [|reflexivity].
    destruct (is_None email); simpl; [reflexivity|].
    destruct (as_EmailPrivacyConfig email) as [c'|]; simpl; [|reflexivity].
    destruct (build_server_request c'); reflexivity.
Qed.

Lemma build_payload_run (mfa email : pyobj) (calls : list request) :
  build_payload mfa email calls = (fst (build_payload mfa email calls), calls).
Proof.
  rewrite <- (build_payload_keeps_log mfa email calls) at 3.
  apply surjective_pairing.
Qed.

Lemma log_grows (calls : list request) (req : request) :
  calls <> calls ++ [req].
Proof.
  intro H. apply (f_equal (@length request)) in H.
  rewrite length_app in H. simpl in H. lia.
Qed.

(** A patch whose payload is known: the outcome of the whole update. *)
Lemma update_after_payload (mfa email : pyobj) (calls : list request)
  (payload : pydict) :
  fst (build_payload mfa email calls) = Ok payload ->
  payload <> [] ->
  update_project_config mfa email calls =
    (match client_body calls (patch_request payload) with
     | Ok body =>
         match ProjectConfig.__init__ body with
         | Ok config => Ok config
         | Raise e => Raise (ValueError e)
         end
     | Raise error => Raise (FirebaseError (handle_auth_backend_error error))
     end, calls ++ [patch_request payload]).
Proof.
  intros Hp Hne. unfold update_project_config, bind.
  rewrite build_payload_run, Hp.
  destruct payload as [|entry rest]; [contradiction|]. simpl.
  unfold try_except_else, self_client_body, patch_request.
  destruct (client_body calls _) as [body|error]; [|reflexivity].
  unfold may_raise. destruct (ProjectConfig.__init__ body); reflexivity.
Qed.

(** *** The update mask *)

(** The order [sorted] sorts by. *)
Definition name_le (a b : string) : Prop := String.leb a b = true.

Lemma build_update_mask_items (payload : pydict) :
  build_update_mask payload
    = sorted (flat_map (fun item =>
                          field_paths (fst item) (child_mask_of (snd item)))
                payload).
Proof.
  unfold build_update_mask. simpl. f_equal.
  induction payload as [|[key value] rest IH]; simpl; [reflexivity|].
  rewrite IH. destruct value; reflexivity.
Qed.

Lemma insert_sorted_Sorted (x : string) (names : list string) :
  Sorted name_le names -> Sorted name_le (insert_sorted x names).
Proof.
  induction names as [|y rest IH]; simpl; intro Hs.
  - repeat constructor.
  - destruct (String.leb x y) eqn:Hxy.
    + constructor; [assumption|]. constructor. exact Hxy.
    + inversion Hs as [|? ? Hrest Hhd]; subst.
      constructor; [exact (IH Hrest)|].
      destruct rest as [|z rest']; simpl.
      * constructor. unfold name_le.
        destruct (String.leb_total x y) as [H|H]; congruence.
      * destruct (String.leb x z).
        -- constructor. unfold name_le.
           destruct (String.leb_total x y) as [H|H]; congruence.
        -- inversion Hhd; subst. constructor. assumption.
Qed.

Lemma sorted_Sorted (names : list string) : Sorted name_le (sorted names).
Proof.
  induction names as [|x rest IH]; simpl; [constructor|].
  apply insert_sorted_Sorted. exact IH.
Qed.

Lemma sorted_of_Sorted (names : list string) :
  Sorted name_le names -> sorted names = names.
Proof.
  induction names as [|x rest IH]; simpl; intro Hs; [reflexivity|].
  inversion Hs as [|? ? Hrest Hhd]; subst. rewrite (IH Hrest).
  destruct Hhd as [|y rest' Hxy]; simpl; [reflexivity|].
  unfold name_le in Hxy. rewrite Hxy. reflexivity.
Qed.

Lemma leb_append_l (p a b : string) :
  String.leb (p ++ a) (p ++ b) = String.leb a b.
Proof.
  unfold String.leb. induction p as [|c p IH]; simpl; [reflexivity|].
  unfold Ascii.compare. rewrite N.compare_refl. exact IH.
Qed.

Lemma field_paths_Sorted (key : string) (value : pyvalue) :
  Sorted name_le (field_paths key (child_mask_of value)).
Proof.
  destruct value; simpl; try (repeat constructor).
  unfold build_update_mask.
  generalize (sorted_Sorted
    ((fix walk (items : list (string * pyvalue)) : list string :=
        match items with
        | [] => []
        | (key0, value) :: rest =>
            field_paths key0
              match value with
              | PDict _ => Some (update_mask_of value)
              | _ => None
              end ++ walk rest
        end) entries)).
  simpl. fold (sorted). intro Hs.
  induction Hs as [|x names Hnames IH Hhd]; simpl; constructor.
  - exact IH.
  - destruct Hhd as [|y rest Hxy]; simpl; constructor.
    unfold name_le in *. now rewrite !leb_append_l.
Qed.

Lemma insert_sorted_past (x : string) (low names : list string) :
  (forall b, In b low -> String.leb x b = false) ->
  insert_sorted x (low ++ names) = low ++ insert_sorted x names.
Proof.
  induction low as [|b low IH]; simpl; intro Hlow; [reflexivity|].
  rewrite (Hlow b (or_introl eq_refl)). f_equal.
  apply IH. intros b' Hb'. apply Hlow. now right.
Qed.

Lemma sorted_swap (high low : list string) :
  Sorted name_le high ->
  Sorted name_le low ->
  (forall a b, In a high -> In b low -> String.leb a b = false) ->
  sorted (high ++ low) = low ++ high.
Proof.
  intros Hhigh Hlow. induction Hhigh as [|a rest Hrest IH Hhd]; intro Hsep.
  - simpl. rewrite app_nil_r. now apply sorted_of_Sorted.
  - simpl. rewrite IH by (intros; apply Hsep; simpl; auto).
    rewrite insert_sorted_past by (intros; apply Hsep; simpl; auto).
    f_equal. destruct Hhd as [|y rest' Hay]; simpl; [reflexivity|].
    unfold name_le in Hay. now rewrite Hay.
Qed.

(** The mask of a payload with the single key ["mfa"]. *)
Lemma mask_of_multi_factor_payload (fragment : pyvalue) :
  build_update_mask [("mfa", fragment)]
    = field_paths "mfa" (child_mask_of fragment).
Proof.
  rewrite build_update_mask_items. simpl. rewrite app_nil_r.
  apply sorted_of_Sorted, field_paths_Sorted.
Qed.

(** The mask of a payload with both keys: the paths under
    ["emailPrivacyConfig"] sort before those under ["mfa"]. *)
Lemma mask_of_full_payload (fragment fragment' : pyvalue) :
  build_update_mask [("mfa", fragment); ("emailPrivacyConfig", fragment')]
    = field_paths "emailPrivacyConfig" (child_mask_of fragment')
      ++ field_paths "mfa" (child_mask_of fragment).
Proof.
  rewrite build_update_mask_items. simpl. rewrite app_nil_r.
  apply sorted_swap; try apply field_paths_Sorted.
  intros a b Ha Hb.
  assert (Hm : exists tail, a = String "m"%char tail).
  { destruct (child_mask_of fragment) as [children|]; simpl in Ha.
    - apply in_map_iff in Ha. destruct Ha as (child & <- & _).
      eexists. reflexivity.
    - destruct Ha as [<-|[]]. eexists. reflexivity. }
  assert (He : exists tail, b = String "e"%char tail).
  { destruct (child_mask_of fragment') as [children|]; simpl in Hb.
    - apply in_map_iff in Hb. destruct Hb as (child & <- & _).
      eexists. reflexivity.
    - destruct Hb as [<-|[]]. eexists. reflexivity. }
  destruct Hm as [ta ->], He as [tb ->]. reflexivity.
Qed.

(** C1. For every valid multi-factor configuration, updating with only
    [multi_factor_config] set builds a payload whose only key is ["mfa"].
    The query parameter sent is [updateMask=] followed by the comma-joined
    mask of that payload: it is the bare [mfa] exactly when the serialised
    fragment is not a mapping; for a fragment that is a mapping the mask
    lists the dotted paths [mfa.<path>] of the mask of the fragment. *)
Theorem update_only_multi_factor_config
  (c : MultiFactorConfig) (fragment : pyvalue) (calls : list request) :
  build_server_request c = Ok fragment ->
  exists payload : pydict,
    fst (build_payload (MultiFactorConfigObj c) (Value PNone) calls)
      = Ok payload /\
    dict_keys payload = ["mfa"] /\
    dict_lookup payload "mfa" = Some fragment /\
    snd (update_project_config (MultiFactorConfigObj c) (Value PNone) calls)
      = calls ++ [Request "patch" "" (Some payload)
                    (Some ("updateMask=" ++
                           str_join ","
                             (field_paths "mfa" (child_mask_of fragment)))
                             %string)] /\
    (str_join "," (field_paths "mfa" (child_mask_of fragment)) = "mfa" <->
     isinstance_dict fragment = false).
Proof.
  intro Hc. exists [("mfa", fragment)].
  assert (Hp : fst (build_payload (MultiFactorConfigObj c) (Value PNone) calls)
               = Ok [("mfa", fragment)]).
  { unfold build_payload, bind, may_raise. simpl. rewrite Hc. reflexivity. }
  split; [assumption|]. split; [reflexivity|]. split; [reflexivity|]. split.
  - rewrite (update_after_payload _ _ _ _ Hp) by discriminate.
    unfold patch_request. rewrite mask_of_multi_factor_payload. reflexivity.
  - destruct fragment; simpl; try (split; reflexivity).
    split; [|discriminate].
    destruct (build_update_mask entries) as [|child [|child' rest]]; simpl;
      discriminate.
Qed.

(** C2. For every pair of valid configurations, updating with both set
    builds a payload whose keys are ["mfa"] then ["emailPrivacyConfig"], in
    that order.  The update mask is not the keys in that order: it is the
    comma-joined sorted mask of the payload, the paths of
    ["emailPrivacyConfig"] first and those of ["mfa"] after them, each key
    standing for itself when its fragment is not a mapping and for the
    dotted paths of the mask of its fragment otherwise. *)
Theorem update_both_configs
  (c : MultiFactorConfig) (c' : EmailPrivacyConfig)
  (fragment fragment' : pyvalue) (calls : list request) :
  build_server_request c = Ok fragment ->
  build_server_request c' = Ok fragment' ->
  exists payload : pydict,
    fst (build_payload (MultiFactorConfigObj c) (EmailPrivacyConfigObj c')
           calls) = Ok payload /\
    dict_keys payload = ["mfa"; "emailPrivacyConfig"] /\
    dict_lookup payload "mfa" = Some fragment /\
    dict_lookup payload "emailPrivacyConfig" = Some fragment' /\
    snd (update_project_config (MultiFactorConfigObj c)
           (EmailPrivacyConfigObj c') calls)
      = calls ++ [Request "patch" "" (Some payload)
                    (Some ("updateMask=" ++
                           str_join ","
                             (field_paths "emailPrivacyConfig"
                                (child_mask_of fragment')
                              ++ field_paths "mfa" (child_mask_of fragment)))
                             %string)] /\
    (isinstance_dict fragment = false ->
     isinstance_dict fragment' = false ->
     str_join ","
       (field_paths "emailPrivacyConfig" (child_mask_of fragment')
        ++ field_paths "mfa" (child_mask_of fragment))
     = "emailPrivacyConfig,mfa").
Proof.
  intros Hc Hc'.
  exists [("mfa", fragment); ("emailPrivacyConfig", fragment')].
  assert (Hp : fst (build_payload (MultiFactorConfigObj c)
                      (EmailPrivacyConfigObj c') calls)
               = Ok [("mfa", fragment); ("emailPrivacyConfig", fragment')]).
  { unfold build_payload, bind, may_raise. simpl. rewrite Hc. simpl.
    rewrite Hc'. reflexivity. }
  split; [assumption|]. do 3 (split; [reflexivity|]). split.
  - rewrite (update_after_payload _ _ _ _ Hp) by discriminate.
    unfold patch_request. rewrite mask_of_full_payload. reflexivity.
  - intros Hf Hf'.
    destruct fragment; try discriminate Hf;
      destruct fragment'; try discriminate Hf'; reflexivity.
Qed.

(** C3. Updating with neither argument supplied raises the [ValueError]
    for an empty update, and the client is not invoked: the log of
    invocations is left as it was. *)
Theorem update_without_arguments_raises (calls : list request) :
  update_project_config (Value PNone) (Value PNone) calls
    = (Raise (ValueError empty_update_error), calls).
Proof. reflexivity. Qed.

(** C4. A supplied argument that is not an instance of its expected class
    makes the update raise [ValueError] without invoking the client.  The
    multi-factor argument is validated first: when it has the wrong type the
    error is its type error whatever the other argument is, and the
    email-privacy type error is raised once the multi-factor argument has
    passed (absent, or serialised without error). *)
Theorem wrong_type_raises_before_network
  (mfa email : pyobj) (calls : list request) :
  wrong_multi_factor mfa = true \/ wrong_email_privacy email = true ->
  exists e : value_error,
    update_project_config mfa email calls = (Raise (ValueError e), calls) /\
    (wrong_multi_factor mfa = true -> e = multi_factor_type_error) /\
    (wrong_multi_factor mfa = false ->
     (forall c, as_MultiFactorConfig mfa = Some c ->
                exists fragment, build_server_request c = Ok fragment) ->
     e = email_privacy_type_error).
Proof.
  unfold wrong_multi_factor, wrong_email_privacy.
  unfold update_project_config, build_payload, bind, ret, raise, may_raise.
  intros H.
  destruct (is_None mfa); simpl in *.
  - destruct H as [H|H]; [discriminate|].
    destruct (is_None email); simpl in *; [discriminate|].
    destruct (as_EmailPrivacyConfig email); [discriminate|].
    exists email_privacy_type_error. repeat split; try reflexivity.
    discriminate.
  - destruct (as_MultiFactorConfig mfa) as [c|].
    + destruct H as [H|H]; [discriminate|].
      destruct (build_server_request c) as [fragment|err] eqn:Hc; simpl.
      * destruct (is_None email); simpl in *; [discriminate|].
        destruct (as_EmailPrivacyConfig email); [discriminate|].
        exists email_privacy_type_error. repeat split; try reflexivity.
        discriminate.
      * exists err. repeat split; try discriminate.
        intros _ Hok. destruct (Hok c eq_refl) as [fragment Hf].
        rewrite Hc in Hf. discriminate.
    + exists multi_factor_type_error. repeat split; try reflexivity.
      discriminate.
Qed.

(** A decoded body that is not a mapping is not turned into a backend
    error: the [ProjectConfig] constructor raises its [ValueError]. *)
Lemma fetch_of_non_mapping_body (calls : list request) (body : pyvalue) :
  client_body calls get_request = Ok body ->
  isinstance_dict body = false ->
  get_project_config calls
    = (Raise (ValueError (ValueErrorOf
         "Invalid data argument in Project constructor: {0}" [body])),
       calls ++ [get_request]).
Proof.
  intros Hbody Hshape.
  unfold get_project_config, try_except_else, self_client_body.
  fold get_request. rewrite Hbody.
  unfold may_raise, ProjectConfig.__init__.
  unfold isinstance_dict in Hshape.
  destruct (as_dict body); [discriminate|reflexivity].
Qed.


(** *** Further properties of the service *)

(** X1. A fetch invokes the client exactly once, with a GET on the empty
    relative URL and neither body nor parameters, whatever the exchange
    yields. *)
Theorem fetch_invokes_client_once (calls : list request) :
  snd (get_project_config calls) = calls ++ [get_request].
Proof.
  unfold get_project_config, try_except_else, self_client_body.
  fold get_request.
  destruct (client_body calls get_request) as [body|error]; [|reflexivity].
  unfold may_raise. destruct (ProjectConfig.__init__ body); reflexivity.
Qed.

(** The two ways an update can go: stopped by a [ValueError] before the
    client is invoked, or through to the one PATCH. *)
Lemma update_stops_or_sends (mfa email : pyobj) (calls : list request) :
  (exists e : value_error,
     update_project_config mfa email calls = (Raise (ValueError e), calls)) \/
  (exists payload : pydict,
     fst (build_payload mfa email calls) = Ok payload /\
     payload <> [] /\
     snd (update_project_config mfa email calls)
       = calls ++ [patch_request payload]).
Proof.
  destruct (fst (build_payload mfa email calls)) as [payload|e] eqn:Hp.
  - destruct payload as [|entry rest].
    + left. exists empty_update_error.
      unfold update_project_config, bind.
      rewrite build_payload_run, Hp. reflexivity.
    + right. exists (entry :: rest).
      assert (Hne : entry :: rest <> []) by discriminate.
      repeat split; try assumption.
      rewrite (update_after_payload _ _ _ _ Hp Hne). reflexivity.
  - destruct e as [e|e|e].
    + left. exists e. unfold update_project_config, bind.
      rewrite build_payload_run, Hp. reflexivity.
    + exfalso. revert Hp.
      unfold build_payload, bind, ret, raise, may_raise.
      destruct (is_None mfa); simpl;
        [|destruct (as_MultiFactorConfig mfa) as [c|]; simpl;
          [destruct (build_server_request c); simpl|]];
        try discriminate;
        (destruct (is_None email); simpl;
         [|destruct (as_EmailPrivacyConfig email) as [c'|]; simpl;
           [destruct (build_server_request c'); simpl|]]);
        discriminate.
    + exfalso. revert Hp.
      unfold build_payload, bind, ret, raise, may_raise.
      destruct (is_None mfa); simpl;
        [|destruct (as_MultiFactorConfig mfa) as [c|]; simpl;
          [destruct (build_server_request c); simpl|]];
        try discriminate;
        (destruct (is_None email); simpl;
         [|destruct (as_EmailPrivacyConfig email) as [c'|]; simpl;
           [destruct (build_server_request c'); simpl|]]);
        discriminate.
Qed.

(** X2. An update either raises [ValueError] without invoking the client,
    or invokes it exactly once, with the PATCH that carries the non-empty
    payload built from the arguments. *)
Theorem update_invokes_client_at_most_once
  (mfa email : pyobj) (calls : list request) :
  (exists e : value_error,
     update_project_config mfa email calls = (Raise (ValueError e), calls)) \/
  (exists payload : pydict,
     fst (build_payload mfa email calls) = Ok payload /\
     payload <> [] /\
     snd (update_project_config mfa email calls)
       = calls ++ [patch_request payload]).
Proof. exact (update_stops_or_sends mfa email calls). Qed.

(** X3. A fetch or an update raises a backend error exactly when its
    client call raised a [RequestException], and the error raised is then
    the one [handle_auth_backend_error] returns for that exception; the
    [RequestException] itself never leaves the service. *)
Theorem request_exceptions_never_escape
  (mfa email : pyobj) (calls : list request) :
  (forall fe : firebase_error,
     fst (get_project_config calls) = Raise (FirebaseError fe) <->
     exists error,
       client_body calls get_request = Raise error /\
       fe = handle_auth_backend_error error) /\
  (forall fe : firebase_error,
     fst (update_project_config mfa email calls) = Raise (FirebaseError fe) <->
     exists payload error,
       fst (build_payload mfa email calls) = Ok payload /\
       payload <> [] /\
       client_body calls (patch_request payload) = Raise error /\
       fe = handle_auth_backend_error error) /\
  (forall error : request_exception,
     fst (get_project_config calls) <> Raise (RequestException error) /\
     fst (update_project_config mfa email calls)
       <> Raise (RequestException error)).
Proof.
  assert (Hget : fst (get_project_config calls)
    = match client_body calls get_request with
      | Ok body =>
          match ProjectConfig.__init__ body with
          | Ok config => Ok config
          | Raise e => Raise (ValueError e)
          end
      | Raise error => Raise (FirebaseError (handle_auth_backend_error error))
      end).
  { unfold get_project_config, try_except_else, self_client_body.
    fold get_request.
    destruct (client_body calls get_request) as [body|err]; [|reflexivity].
    unfold may_raise. destruct (ProjectConfig.__init__ body); reflexivity. }
  split; [|split].
  - intro fe. rewrite Hget. split.
    + destruct (client_body calls get_request) as [body|err].
      * destruct (ProjectConfig.__init__ body); discriminate.
      * intros [= <-]. eauto.
    + intros (err & -> & ->). reflexivity.
  - intro fe. split.
    + destruct (update_stops_or_sends mfa email calls)
        as [[e He] | (payload & Hp & Hne & _)].
      * rewrite He. discriminate.
      * rewrite (update_after_payload _ _ _ _ Hp Hne). cbn [fst].
        destruct (client_body calls (patch_request payload)) as [body|err] eqn:Hc.
        -- destruct (ProjectConfig.__init__ body); discriminate.
        -- intros [= <-]. exists payload, err. auto.
    + intros (payload & err & Hp & Hne & Hc & ->).
      rewrite (update_after_payload _ _ _ _ Hp Hne), Hc. reflexivity.
  - intro error. split.
    + rewrite Hget. destruct (client_body calls get_request) as [body|err];
        [|discriminate].
      destruct (ProjectConfig.__init__ body); discriminate.
    + destruct (update_stops_or_sends mfa email calls)
        as [[e He] | (payload & Hp & Hne & _)].
      * rewrite He. discriminate.
      * rewrite (update_after_payload _ _ _ _ Hp Hne). cbn [fst].
        destruct (client_body calls (patch_request payload)) as [body|err];
          [|discriminate].
        destruct (ProjectConfig.__init__ body); discriminate.
Qed.

(** X4. When the client answers the call of a fetch or of an update with a
    decoded body, the outcome of the operation is the outcome of
    constructing [ProjectConfig] from that body: the snapshot of a mapping,
    the constructor's [ValueError] for any other value. *)
Theorem answered_exchange_yields_snapshot_of_body
  (calls : list request) (req : request) (body : pyvalue) :
  client_body calls req = Ok body ->
  (req = get_request ->
   get_project_config calls
     = (match ProjectConfig.__init__ body with
        | Ok config => Ok config
        | Raise e => Raise (ValueError e)
        end, calls ++ [req])) /\
  (forall mfa email : pyobj,
     snd (update_project_config mfa email calls) = calls ++ [req] ->
     update_project_config mfa email calls
       = (match ProjectConfig.__init__ body with
          | Ok config => Ok config
          | Raise e => Raise (ValueError e)
          end, calls ++ [req])).
Proof.
  intro Hbody. split.
  - intros ->. unfold get_project_config, try_except_else, self_client_body.
    fold get_request. rewrite Hbody. unfold may_raise.
    destruct (ProjectConfig.__init__ body); reflexivity.
  - intros mfa email Hlog.
    destruct (update_stops_or_sends mfa email calls)
      as [[e He] | (payload & Hp & Hne & Hsent)].
    + exfalso. rewrite He in Hlog. simpl in Hlog.
      exact (log_grows _ _ Hlog).
    + rewrite Hsent in Hlog. apply app_inv_head in Hlog.
      injection Hlog as <-.
      rewrite (update_after_payload _ _ _ _ Hp Hne), Hbody. reflexivity.
Qed.

(** X5. A multi-factor configuration whose serialisation raises makes the
    update raise that error without invoking the client, whatever the
    email-privacy argument is: that argument is not even type-checked. *)
Theorem multi_factor_serialisation_error_wins
  (c : MultiFactorConfig) (e : value_error) (email : pyobj)
  (calls : list request) :
  build_server_request c = Raise e ->
  update_project_config (MultiFactorConfigObj c) email calls
    = (Raise (ValueError e), calls).
Proof.
  intro Hc.
  unfold update_project_config, build_payload, bind, may_raise, raise.
  simpl. rewrite Hc. reflexivity.
Qed.

(** X6. An email-privacy configuration whose serialisation raises makes the
    update raise that error without invoking the client, also when a
    multi-factor fragment has already been put into the payload. *)
Theorem email_privacy_serialisation_error_aborts
  (mfa : pyobj) (c' : EmailPrivacyConfig) (e : value_error)
  (calls : list request) :
  build_server_request c' = Raise e ->
  wrong_multi_factor mfa = false ->
  (forall c, as_MultiFactorConfig mfa = Some c ->
             exists fragment, build_server_request c = Ok fragment) ->
  update_project_config mfa (EmailPrivacyConfigObj c') calls
    = (Raise (ValueError e), calls).
Proof.
  intros Hc' Hmfa Hok. revert Hmfa.
  unfold wrong_multi_factor.
  unfold update_project_config, build_payload, bind, ret, may_raise, raise.
  destruct (is_None mfa); simpl.
  - intros _. rewrite Hc'. reflexivity.
  - destruct (as_MultiFactorConfig mfa) as [c|]; [|discriminate].
    intros _. destruct (Hok c eq_refl) as [fragment Hc].
    rewrite Hc. simpl. rewrite Hc'. reflexivity.
Qed.

(** X7. For every valid email-privacy configuration, updating with only
    [email_privacy_config] set invokes the client once, with a PATCH on the
    empty relative URL whose body has the single key ["emailPrivacyConfig"],
    bound to the serialised fragment. *)
Theorem update_only_email_privacy_config
  (c' : EmailPrivacyConfig) (fragment : pyvalue) (calls : list request) :
  build_server_request c' = Ok fragment ->
  exists req : request,
    snd (update_project_config (Value PNone) (EmailPrivacyConfigObj c') calls)
      = calls ++ [req] /\
    req_method req = "patch" /\
    req_url req = "" /\
    req_json req = Some [("emailPrivacyConfig", fragment)].
Proof.
  intro Hc'.
  assert (Hp : fst (build_payload (Value PNone) (EmailPrivacyConfigObj c')
                      calls) = Ok [("emailPrivacyConfig", fragment)]).
  { unfold build_payload, bind, may_raise. simpl. rewrite Hc'. reflexivity. }
  exists (patch_request [("emailPrivacyConfig", fragment)]).
  rewrite (update_after_payload _ _ _ _ Hp) by discriminate.
  repeat split.
Qed.

(** X8. Whenever the payload is built, it binds no key twice and no key
    other than ["mfa"] and ["emailPrivacyConfig"], and each of the two is
    bound exactly when its argument is an instance of its class, to the
    fragment that instance serialises to. *)
Theorem payload_holds_the_serialised_fragments
  (mfa email : pyobj) (calls : list request) (payload : pydict) :
  fst (build_payload mfa email calls) = Ok payload ->
  NoDup (dict_keys payload) /\
  (forall k, In k (dict_keys payload) ->
             k = "mfa" \/ k = "emailPrivacyConfig") /\
  (forall f, dict_lookup payload "mfa" = Some f <->
             exists c, as_MultiFactorConfig mfa = Some c /\
                       build_server_request c = Ok f) /\
  (forall g, dict_lookup payload "emailPrivacyConfig" = Some g <->
             exists c', as_EmailPrivacyConfig email = Some c' /\
                        build_server_request c' = Ok g).
Proof.
  intro Hp.
  assert (Hshape :
    (as_MultiFactorConfig mfa = None /\ as_EmailPrivacyConfig email = None /\
     payload = []) \/
    (exists c f, as_MultiFactorConfig mfa = Some c /\
       build_server_request c = Ok f /\
       as_EmailPrivacyConfig email = None /\ payload = [("mfa", f)]) \/
    (exists c' g, as_MultiFactorConfig mfa = None /\
       as_EmailPrivacyConfig email = Some c' /\
       build_server_request c' = Ok g /\
       payload = [("emailPrivacyConfig", g)]) \/
    (exists c f c' g, as_MultiFactorConfig mfa = Some c /\
       build_server_request c = Ok f /\
       as_EmailPrivacyConfig email = Some c' /\
       build_server_request c' = Ok g /\
       payload = [("mfa", f); ("emailPrivacyConfig", g)])).
  { revert Hp. unfold build_payload, bind, ret, raise, may_raise.
    destruct mfa as [[]|c|c]; simpl; try discriminate.
    - destruct email as [[]|c'|c']; simpl; try discriminate.
      + intros [= <-]. left. auto.
      + destruct (build_server_request c') as [g|] eqn:Hg; [|discriminate].
        simpl. intros [= <-]. right. right. left. eauto 10.
    - destruct (build_server_request c) as [f|] eqn:Hf; [|discriminate].
      simpl. destruct email as [[]|c'|c']; simpl; try discriminate.
      + intros [= <-]. right. left. eauto 10.
      + destruct (build_server_request c') as [g|] eqn:Hg; [|discriminate].
        simpl. intros [= <-]. right. right. right. eauto 12. }
  destruct Hshape as [(Ha & Hb & ->) | [(c & f & Ha & Hf & Hb & ->) |
    [(c' & g & Ha & Hb & Hg & ->) |
     (c & f & c' & g & Ha & Hf & Hb & Hg & ->)]]]; simpl.
  - split; [constructor|]. split; [intros k []|].
    split; intro x; split; try discriminate.
    + intros (c & Hc & _). rewrite Ha in Hc. discriminate.
    + intros (c & Hc & _). rewrite Hb in Hc. discriminate.
  - split; [repeat constructor; intros []|].
    split; [intros k [<-|[]]; auto|].
    split; intro x; split.
    + intros [= <-]. eauto.
    + intros (c0 & Hc & Hx). rewrite Ha in Hc. injection Hc as <-.
      rewrite Hf in Hx. injection Hx as <-. reflexivity.
    + discriminate.
    + intros (c0 & Hc & _). rewrite Hb in Hc. discriminate.
  - split; [repeat constructor; intros []|].
    split; [intros k [<-|[]]; auto|].
    split; intro x; split.
    + discriminate.
    + intros (c0 & Hc & _). rewrite Ha in Hc. discriminate.
    + intros [= <-]. eauto.
    + intros (c0 & Hc & Hx). rewrite Hb in Hc. injection Hc as <-.
      rewrite Hg in Hx. injection Hx as <-. reflexivity.
  - split.
    { constructor; [|repeat constructor; intros []].
      intros [H|[]]. discriminate H. }
    split; [intros k [<-|[<-|[]]]; auto|].
    split; intro x; split.
    + intros [= <-]. eauto.
    + intros (c0 & Hc & Hx). rewrite Ha in Hc. injection Hc as <-.
      rewrite Hf in Hx. injection Hx as <-. reflexivity.
    + intros [= <-]. eauto.
    + intros (c0 & Hc & Hx). rewrite Hb in Hc. injection Hc as <-.
      rewrite Hg in Hx. injection Hx as <-. reflexivity.
Qed.

(** X9. When both configurations are valid and the backend answers the
    PATCH by echoing the payload, the update returns a snapshot whose
    accessors give back the fragments that were sent; a fragment that is
    falsy (an empty mapping, say) reads back as [None]. *)
Theorem update_then_read_back
  (c : MultiFactorConfig) (c' : EmailPrivacyConfig) (f g : pyvalue)
  (calls : list request) :
  build_server_request c = Ok f ->
  build_server_request c' = Ok g ->
  client_body calls (patch_request [("mfa", f); ("emailPrivacyConfig", g)])
    = Ok (PDict [("mfa", f); ("emailPrivacyConfig", g)]) ->
  exists config : ProjectConfig.t,
    update_project_config (MultiFactorConfigObj c) (EmailPrivacyConfigObj c')
      calls
      = (Ok config,
         calls ++ [patch_request [("mfa", f); ("emailPrivacyConfig", g)]]) /\
    fst (ProjectConfig.multi_factor_config config)
      = (if truthy f then Some (MultiFactorServerConfigOf f) else None) /\
    fst (ProjectConfig.email_privacy_config config)
      = (if truthy g then Some (EmailPrivacyServerConfigOf g) else None).
Proof.
  intros Hc Hc' Hecho.
  assert (Hp : fst (build_payload (MultiFactorConfigObj c)
                      (EmailPrivacyConfigObj c') calls)
               = Ok [("mfa", f); ("emailPrivacyConfig", g)]).
  { unfold build_payload, bind, may_raise. simpl. rewrite Hc. simpl.
    rewrite Hc'. reflexivity. }
  exists (ProjectConfig.Make [("mfa", f); ("emailPrivacyConfig", g)]).
  split.
  - rewrite (update_after_payload _ _ _ _ Hp) by discriminate.
    rewrite Hecho. reflexivity.
  - unfold ProjectConfig.multi_factor_config, ProjectConfig.email_privacy_config.
    unfold ProjectConfig.mbind, ProjectConfig.self_data_get, dict_get. simpl.
    split; [destruct (truthy f)|destruct (truthy g)]; reflexivity.
Qed.

End Service.
End ProjectConfigManagementService.

(** ** Failed exchanges *)


(** ** Properties of the snapshot *)

(** C5. A snapshot built from a mapping that binds ["mfa"] and
    ["emailPrivacyConfig"] to non-empty mappings answers both accessors with
    a view of the nested mapping; a snapshot built from the empty mapping
    answers both with [None]. *)
Theorem accessors_on_full_and_empty_mapping (m e : pydict) :
  m <> [] ->
  e <> [] ->
  (exists config : ProjectConfig.t,
     ProjectConfig.__init__
       (PDict [("mfa", PDict m); ("emailPrivacyConfig", PDict e)])
       = Ok config /\
     fst (ProjectConfig.multi_factor_config config)
       = Some (MultiFactorServerConfigOf (PDict m)) /\
     fst (ProjectConfig.email_privacy_config config)
       = Some (EmailPrivacyServerConfigOf (PDict e))) /\
  (exists config : ProjectConfig.t,
     ProjectConfig.__init__ (PDict []) = Ok config /\
     fst (ProjectConfig.multi_factor_config config) = None /\
     fst (ProjectConfig.email_privacy_config config) = None).
Proof.
  intros Hm He. split.
  - eexists. split; [reflexivity|].
    destruct m as [|x m']; [contradiction|].
    destruct e as [|y e']; [contradiction|].
    split; reflexivity.
  - eexists. repeat split; reflexivity.
Qed.

(** C6. Constructing a snapshot from a mapping succeeds and wraps it;
    constructing it from a value of any other shape raises [ValueError]. *)
Theorem constructor_requires_mapping (data : pyvalue) :
  match data with
  | PDict d => ProjectConfig.__init__ data = Ok (ProjectConfig.Make d)
  | _ =>
      ProjectConfig.__init__ data
        = Raise (ValueErrorOf
                   "Invalid data argument in Project constructor: {0}" [data])
  end.
Proof. destruct data; reflexivity. Qed.

(** C7. When the wrapped mapping binds a sub-section key to a falsy value
    (an empty mapping, [None], zero, an empty string or list, [False]), the
    accessor of that key answers [None]: a present key is not enough. *)
Theorem falsy_section_is_absent (config : ProjectConfig.t) (v : pyvalue) :
  truthy v = false ->
  (dict_lookup (ProjectConfig._data config) "mfa" = Some v ->
   fst (ProjectConfig.multi_factor_config config) = None) /\
  (dict_lookup (ProjectConfig._data config) "emailPrivacyConfig" = Some v ->
   fst (ProjectConfig.email_privacy_config config) = None).
Proof.
  intro Hv.
  unfold ProjectConfig.multi_factor_config, ProjectConfig.email_privacy_config.
  unfold ProjectConfig.mbind, ProjectConfig.self_data_get, dict_get.
  split; intros ->; rewrite Hv; reflexivity.
Qed.

Lemma multi_factor_config_step (self : ProjectConfig.t) :
  ProjectConfig.multi_factor_config self
    = (fst (ProjectConfig.multi_factor_config self), self).
Proof.
  unfold ProjectConfig.multi_factor_config, ProjectConfig.mbind.
  unfold ProjectConfig.self_data_get, ProjectConfig.mret.
  destruct (truthy _); reflexivity.
Qed.

Lemma email_privacy_config_step (self : ProjectConfig.t) :
  ProjectConfig.email_privacy_config self
    = (fst (ProjectConfig.email_privacy_config self), self).
Proof.
  unfold ProjectConfig.email_privacy_config, ProjectConfig.mbind.
  unfold ProjectConfig.self_data_get, ProjectConfig.mret.
  destruct (truthy _); reflexivity.
Qed.

Lemma read_times_of_pure {A : Type} (m : ProjectConfig.method A)
  (self : ProjectConfig.t) :
  m self = (fst (m self), self) ->
  forall n : nat,
    ProjectConfig.read_times n m self = (repeat (fst (m self)) n, self).
Proof.
  intros Hstep n. induction n as [|n IH]; [reflexivity|].
  simpl. rewrite Hstep. simpl. rewrite IH. reflexivity.
Qed.

(** C9. Reading an accessor any number of times leaves the snapshot, and so
    the wrapped mapping, as it was, and every read yields the same result,
    the one derived from the stored mapping. *)
Theorem accessors_are_idempotent (self : ProjectConfig.t) (n : nat) :
  ProjectConfig.read_times n ProjectConfig.multi_factor_config self
    = (repeat (if truthy (dict_get (ProjectConfig._data self) "mfa")
               then Some (MultiFactorServerConfigOf
                            (dict_get (ProjectConfig._data self) "mfa"))
               else None) n, self) /\
  ProjectConfig.read_times n ProjectConfig.email_privacy_config self
    = (repeat (if truthy (dict_get (ProjectConfig._data self)
                            "emailPrivacyConfig")
               then Some (EmailPrivacyServerConfigOf
                            (dict_get (ProjectConfig._data self)
                               "emailPrivacyConfig"))
               else None) n, self).
Proof.
  split.
  - rewrite (read_times_of_pure _ _ (multi_factor_config_step self)).
    f_equal. f_equal.
    unfold ProjectConfig.multi_factor_config, ProjectConfig.mbind.
    unfold ProjectConfig.self_data_get, ProjectConfig.mret.
    destruct (truthy _); reflexivity.
  - rewrite (read_times_of_pure _ _ (email_privacy_config_step self)).
    f_equal. f_equal.
    unfold ProjectConfig.email_privacy_config, ProjectConfig.mbind.
    unfold ProjectConfig.self_data_get, ProjectConfig.mret.
    destruct (truthy _); reflexivity.
Qed.

(** X10. An accessor answers with a view exactly when the wrapped mapping
    binds its key to a truthy value, and the view then wraps that value; a
    missing key and a falsy value both read as [None]. *)
Theorem accessor_present_iff (config : ProjectConfig.t) :
  (forall view : MultiFactorServerConfig,
     fst (ProjectConfig.multi_factor_config config) = Some view <->
     exists v, dict_lookup (ProjectConfig._data config) "mfa" = Some v /\
               truthy v = true /\ view = MultiFactorServerConfigOf v) /\
  (forall view : EmailPrivacyServerConfig,
     fst (ProjectConfig.email_privacy_config config) = Some view <->
     exists v,
       dict_lookup (ProjectConfig._data config) "emailPrivacyConfig"
         = Some v /\
       truthy v = true /\ view = EmailPrivacyServerConfigOf v).
Proof.
  unfold ProjectConfig.multi_factor_config, ProjectConfig.email_privacy_config.
  unfold ProjectConfig.mbind, ProjectConfig.self_data_get, dict_get.
  split; intro view.
  - destruct (dict_lookup _ "mfa") as [v|]; simpl.
    + destruct (truthy v) eqn:Hv; simpl; split.
      * intros [= <-]. eauto.
      * intros (v' & [= <-] & _ & ->). reflexivity.
      * discriminate.
      * intros (v' & [= <-] & Hv' & _). congruence.
    + split; [discriminate|]. intros (v' & Hv' & _). discriminate.
  - destruct (dict_lookup _ "emailPrivacyConfig") as [v|]; simpl.
    + destruct (truthy v) eqn:Hv; simpl; split.
      * intros [= <-]. eauto.
      * intros (v' & [= <-] & _ & ->). reflexivity.
      * discriminate.
      * intros (v' & [= <-] & Hv' & _). congruence.
    + split; [discriminate|]. intros (v' & Hv' & _). discriminate.
Qed.

(** ** Properties of the service constructor *)

Lemma append_length (a b : string) :
  String.length (a ++ b) = String.length a + String.length b.
Proof. induction a as [|x a IH]; simpl; [reflexivity|]. now rewrite IH. Qed.

Lemma append_cancel_l (p a b : string) :
  (p ++ a)%string = (p ++ b)%string -> a = b.
Proof.
  induction p as [|x p IH]; simpl; [trivial|].
  intros [= H]. exact (IH H).
Qed.

Lemma append_cancel_r (s a b : string) :
  (a ++ s)%string = (b ++ s)%string -> a = b.
Proof.
  revert b. induction a as [|x a IH]; intros [|y b] H; simpl in H.
  - reflexivity.
  - exfalso. apply (f_equal String.length) in H. simpl in H.
    rewrite append_length in H. lia.
  - exfalso. apply (f_equal String.length) in H. simpl in H.
    rewrite append_length in H. lia.
  - injection H as -> H. f_equal. exact (IH _ H).
Qed.

(** X11. The base URL the constructor binds the client to determines the
    project: services of applications with different project ids never
    share a base URL, whatever the library version. *)
Theorem base_url_determines_project {Credential : Type}
  (version version' : string)
  (a b : ProjectConfigManagementService.App Credential) (p q : string) :
  ProjectConfigManagementService.project_id a = Some p ->
  ProjectConfigManagementService.project_id b = Some q ->
  ProjectConfigManagementService.base_url
    (ProjectConfigManagementService.client
       (ProjectConfigManagementService.__init__ version a))
  = ProjectConfigManagementService.base_url
      (ProjectConfigManagementService.client
         (ProjectConfigManagementService.__init__ version' b)) ->
  p = q.
Proof.
  intros Ha Hb H.
  unfold ProjectConfigManagementService.__init__ in H. simpl in H.
  rewrite Ha, Hb in H. simpl in H.
  apply (append_cancel_l ProjectConfigManagementService.PROJECT_CONFIG_MGT_URL)
    in H.
  simpl in H. injection H as H.
  exact (append_cancel_r _ _ _ H).
Qed.

(** ** The properties at concrete inputs *)

Import ProjectConfigManagementService.
Import Demo.

Lemma update_only_multi_factor_config_witness :
  build_server_request (Demo.MultiFactor "ENABLED")
    = Ok (PDict [("state", PStr "ENABLED")]) /\
  exists payload : pydict,
    fst (build_payload (EmailPrivacyConfig := Demo.email_privacy)
           (request_exception := Z) (firebase_error := string)
           (MultiFactorConfigObj (Demo.MultiFactor "ENABLED")) (Value PNone)
           []) = Ok payload /\
    dict_keys payload = ["mfa"] /\
    dict_lookup payload "mfa" = Some (PDict [("state", PStr "ENABLED")]) /\
    snd (update_project_config (EmailPrivacyConfig := Demo.email_privacy)
           Demo.handle_auth_backend_error (Demo.answers (PDict []))
           (MultiFactorConfigObj (Demo.MultiFactor "ENABLED")) (Value PNone)
           [])
      = [] ++ [Request "patch" "" (Some payload)
                 (Some ("updateMask=" ++
                        str_join ","
                          (field_paths "mfa"
                             (child_mask_of
                                (PDict [("state", PStr "ENABLED")]))))
                          %string)] /\
    (str_join ","
       (field_paths "mfa"
          (child_mask_of (PDict [("state", PStr "ENABLED")]))) = "mfa" <->
     isinstance_dict (PDict [("state", PStr "ENABLED")]) = false).
Proof.
  split; [reflexivity|].
  apply (update_only_multi_factor_config (EmailPrivacyConfig := Demo.email_privacy)
           Demo.handle_auth_backend_error (Demo.answers (PDict []))
           (Demo.MultiFactor "ENABLED") (PDict [("state", PStr "ENABLED")]) []).
  reflexivity.
Defined.

(** C1 as stated fails: a valid multi-factor configuration whose fragment
    is a mapping is sent with the mask [mfa.state], not [mfa]. *)
Lemma multi_factor_mask_is_dotted :
  build_server_request (Demo.MultiFactor "ENABLED")
    = Ok (PDict [("state", PStr "ENABLED")]) /\
  snd (update_project_config (EmailPrivacyConfig := Demo.email_privacy)
         Demo.handle_auth_backend_error (Demo.answers (PDict []))
         (MultiFactorConfigObj (Demo.MultiFactor "ENABLED")) (Value PNone) [])
    = [Request "patch" ""
         (Some [("mfa", PDict [("state", PStr "ENABLED")])])
         (Some "updateMask=mfa.state")] /\
  Some "updateMask=mfa.state" <> Some "updateMask=mfa".
Proof.
  split; [reflexivity|]. split; [reflexivity|]. discriminate.
Qed.

Lemma update_both_configs_witness :
  build_server_request (Demo.MultiFactor "ENABLED")
    = Ok (PDict [("state", PStr "ENABLED")]) /\
  build_server_request (Demo.EmailPrivacy true)
    = Ok (PDict [("enableImprovedEmailPrivacy", PBool true)]) /\
  exists payload : pydict,
    fst (build_payload (request_exception := Z) (firebase_error := string)
           (MultiFactorConfigObj (Demo.MultiFactor "ENABLED"))
           (EmailPrivacyConfigObj (Demo.EmailPrivacy true)) []) = Ok payload /\
    dict_keys payload = ["mfa"; "emailPrivacyConfig"] /\
    snd (update_project_config
           Demo.handle_auth_backend_error (Demo.answers (PDict []))
           (MultiFactorConfigObj (Demo.MultiFactor "ENABLED"))
           (EmailPrivacyConfigObj (Demo.EmailPrivacy true)) [])
      = [] ++ [Request "patch" "" (Some payload)
                 (Some
                    "updateMask=emailPrivacyConfig.enableImprovedEmailPrivacy,mfa.state")].
Proof.
  split; [reflexivity|]. split; [reflexivity|].
  destruct (update_both_configs
              Demo.handle_auth_backend_error (Demo.answers (PDict []))
              (Demo.MultiFactor "ENABLED") (Demo.EmailPrivacy true)
              (PDict [("state", PStr "ENABLED")])
              (PDict [("enableImprovedEmailPrivacy", PBool true)]) []
              eq_refl eq_refl)
    as (payload & Hp & Hkeys & _ & _ & Hsent & _).
  exists payload. split; [exact Hp|]. split; [exact Hkeys|]. exact Hsent.
Defined.

(** C2 as stated fails: with both configurations valid the mask sent lists
    the email-privacy path before the multi-factor path, and is not
    [mfa,emailPrivacyConfig]. *)
Lemma full_mask_is_sorted_paths :
  build_server_request (Demo.MultiFactor "ENABLED")
    = Ok (PDict [("state", PStr "ENABLED")]) /\
  build_server_request (Demo.EmailPrivacy true)
    = Ok (PDict [("enableImprovedEmailPrivacy", PBool true)]) /\
  snd (update_project_config
         Demo.handle_auth_backend_error (Demo.answers (PDict []))
         (MultiFactorConfigObj (Demo.MultiFactor "ENABLED"))
         (EmailPrivacyConfigObj (Demo.EmailPrivacy true)) [])
    = [Request "patch" ""
         (Some [("mfa", PDict [("state", PStr "ENABLED")]);
                ("emailPrivacyConfig",
                 PDict [("enableImprovedEmailPrivacy", PBool true)])])
         (Some
            "updateMask=emailPrivacyConfig.enableImprovedEmailPrivacy,mfa.state")]
  /\
  Some "updateMask=emailPrivacyConfig.enableImprovedEmailPrivacy,mfa.state"
    <> Some "updateMask=mfa,emailPrivacyConfig".
Proof.
  split; [reflexivity|]. split; [reflexivity|]. split; [reflexivity|].
  discriminate.
Qed.

(** Both arguments of the wrong type: the multi-factor error wins. *)
Lemma wrong_type_raises_before_network_witness :
  (wrong_multi_factor (MultiFactorConfig := Demo.multi_factor)
     (EmailPrivacyConfig := Demo.email_privacy) (Value (PStr "on")) = true \/
   wrong_email_privacy (MultiFactorConfig := Demo.multi_factor)
     (EmailPrivacyConfig := Demo.email_privacy) (Value (PInt 1)) = true) /\
  exists e : value_error,
    update_project_config (MultiFactorConfig := Demo.multi_factor)
      (EmailPrivacyConfig := Demo.email_privacy)
      Demo.handle_auth_backend_error (Demo.answers (PDict []))
      (Value (PStr "on")) (Value (PInt 1)) []
      = (Raise (ValueError e), []) /\
    (wrong_multi_factor (MultiFactorConfig := Demo.multi_factor)
       (EmailPrivacyConfig := Demo.email_privacy) (Value (PStr "on")) = true ->
     e = multi_factor_type_error) /\
    (wrong_multi_factor (MultiFactorConfig := Demo.multi_factor)
       (EmailPrivacyConfig := Demo.email_privacy) (Value (PStr "on")) = false ->
     (forall c : Demo.multi_factor,
        as_MultiFactorConfig (EmailPrivacyConfig := Demo.email_privacy)
          (Value (PStr "on")) = Some c ->
        exists fragment, build_server_request c = Ok fragment) ->
     e = email_privacy_type_error).
Proof.
  split; [left; reflexivity|].
  apply (wrong_type_raises_before_network
           (MultiFactorConfig := Demo.multi_factor)
           (EmailPrivacyConfig := Demo.email_privacy)
           Demo.handle_auth_backend_error (Demo.answers (PDict []))
           (Value (PStr "on")) (Value (PInt 1)) []).
  left. reflexivity.
Defined.



Lemma accessors_on_full_and_empty_mapping_witness :
  [("state", PStr "ENABLED")] <> [] /\
  [("enableImprovedEmailPrivacy", PBool true)] <> [] /\
  exists config : ProjectConfig.t,
    ProjectConfig.__init__
      (PDict [("mfa", PDict [("state", PStr "ENABLED")]);
              ("emailPrivacyConfig",
               PDict [("enableImprovedEmailPrivacy", PBool true)])])
      = Ok config /\
    fst (ProjectConfig.multi_factor_config config)
      = Some (MultiFactorServerConfigOf (PDict [("state", PStr "ENABLED")])) /\
    fst (ProjectConfig.email_privacy_config config)
      = Some (EmailPrivacyServerConfigOf
                (PDict [("enableImprovedEmailPrivacy", PBool true)])).
Proof.
  split; [discriminate|]. split; [discriminate|].
  apply (accessors_on_full_and_empty_mapping
           [("state", PStr "ENABLED")]
           [("enableImprovedEmailPrivacy", PBool true)]);
    discriminate.
Defined.

(** The key ["mfa"] is present, bound to an empty mapping: still absent. *)
Lemma falsy_section_is_absent_witness :
  truthy (PDict []) = false /\
  dict_lookup [("mfa", PDict [])] "mfa" = Some (PDict []) /\
  fst (ProjectConfig.multi_factor_config
         (ProjectConfig.Make [("mfa", PDict [])])) = None.
Proof.
  split; [reflexivity|]. split; [reflexivity|].
  apply (proj1 (falsy_section_is_absent
                  (ProjectConfig.Make [("mfa", PDict [])]) (PDict [])
                  eq_refl) eq_refl).
Defined.

Lemma answered_exchange_yields_snapshot_of_body_witness :
  Demo.answers (PDict [("mfa", PDict [("state", PStr "ENABLED")])])
    [] get_request
    = Ok (PDict [("mfa", PDict [("state", PStr "ENABLED")])]) /\
  get_project_config Demo.handle_auth_backend_error
    (Demo.answers (PDict [("mfa", PDict [("state", PStr "ENABLED")])])) []
    = (Ok (ProjectConfig.Make [("mfa", PDict [("state", PStr "ENABLED")])]),
       [get_request]).
Proof.
  split; [reflexivity|].
  apply (proj1 (answered_exchange_yields_snapshot_of_body
                  Demo.handle_auth_backend_error
                  (Demo.answers
                     (PDict [("mfa", PDict [("state", PStr "ENABLED")])]))
                  [] get_request
                  (PDict [("mfa", PDict [("state", PStr "ENABLED")])])
                  eq_refl) eq_refl).
Defined.

(** The multi-factor configuration does not serialise and the other
    argument has the wrong type: the serialisation error is the one raised. *)
Lemma multi_factor_serialisation_error_wins_witness :
  build_server_request (Demo.MultiFactor "")
    = Raise (ValueErrorOf "multi factor state must be set." []) /\
  update_project_config (EmailPrivacyConfig := Demo.email_privacy)
    Demo.handle_auth_backend_error (Demo.answers (PDict []))
    (MultiFactorConfigObj (Demo.MultiFactor "")) (Value (PInt 1)) []
    = (Raise (ValueError (ValueErrorOf "multi factor state must be set." [])),
       []).
Proof.
  split; [reflexivity|].
  apply (multi_factor_serialisation_error_wins
           (EmailPrivacyConfig := Demo.email_privacy)
           Demo.handle_auth_backend_error (Demo.answers (PDict []))
           (Demo.MultiFactor "")
           (ValueErrorOf "multi factor state must be set." [])
           (Value (PInt 1)) []).
  reflexivity.
Defined.

(** Collaborators whose email-privacy configurations never serialise. *)
Lemma email_privacy_serialisation_error_aborts_witness :
  let failing : ServerRequest bool :=
    fun _ => Raise (ValueErrorOf "flag must be set." []) in
  update_project_config (email_privacy_request := failing)
    Demo.handle_auth_backend_error (Demo.answers (PDict []))
    (MultiFactorConfigObj (Demo.MultiFactor "ENABLED"))
    (EmailPrivacyConfigObj true) []
    = (Raise (ValueError (ValueErrorOf "flag must be set." [])), []).
Proof.
  intro failing.
  apply (email_privacy_serialisation_error_aborts
           (email_privacy_request := failing)
           Demo.handle_auth_backend_error (Demo.answers (PDict []))
           (MultiFactorConfigObj (Demo.MultiFactor "ENABLED")) true
           (ValueErrorOf "flag must be set." []) []).
  - reflexivity.
  - reflexivity.
  - intros c [= <-]. eexists. reflexivity.
Defined.

Lemma update_only_email_privacy_config_witness :
  build_server_request (Demo.EmailPrivacy true)
    = Ok (PDict [("enableImprovedEmailPrivacy", PBool true)]) /\
  exists req : request,
    snd (update_project_config (MultiFactorConfig := Demo.multi_factor)
           Demo.handle_auth_backend_error (Demo.answers (PDict []))
           (Value PNone) (EmailPrivacyConfigObj (Demo.EmailPrivacy true)) [])
      = [] ++ [req] /\
    req_method req = "patch" /\
    req_url req = "" /\
    req_json req
      = Some [("emailPrivacyConfig",
               PDict [("enableImprovedEmailPrivacy", PBool true)])].
Proof.
  split; [reflexivity|].
  apply (update_only_email_privacy_config
           (MultiFactorConfig := Demo.multi_factor)
           Demo.handle_auth_backend_error (Demo.answers (PDict []))
           (Demo.EmailPrivacy true)
           (PDict [("enableImprovedEmailPrivacy", PBool true)]) []).
  reflexivity.
Defined.

Lemma payload_holds_the_serialised_fragments_witness :
  fst (build_payload (EmailPrivacyConfig := Demo.email_privacy)
         (request_exception := Z) (firebase_error := string)
         (MultiFactorConfigObj (Demo.MultiFactor "ENABLED")) (Value PNone) [])
    = Ok [("mfa", PDict [("state", PStr "ENABLED")])] /\
  NoDup (dict_keys [("mfa", PDict [("state", PStr "ENABLED")])]).
Proof.
  split; [reflexivity|].
  refine (proj1 (payload_holds_the_serialised_fragments
                   (EmailPrivacyConfig := Demo.email_privacy)
                   (request_exception := Z) (firebase_error := string)
                   (MultiFactorConfigObj (Demo.MultiFactor "ENABLED"))
                   (Value PNone) []
                   [("mfa", PDict [("state", PStr "ENABLED")])] _)).
  reflexivity.
Defined.

(** A backend that answers a PATCH by echoing its body. *)
Lemma update_then_read_back_witness :
  let echo : list request -> request -> except Z pyvalue :=
    fun _ req =>
      match req_json req with
      | Some payload => Ok (PDict payload)
      | None => Ok (PDict [])
      end in
  exists config : ProjectConfig.t,
    update_project_config Demo.handle_auth_backend_error echo
      (MultiFactorConfigObj (Demo.MultiFactor "ENABLED"))
      (EmailPrivacyConfigObj (Demo.EmailPrivacy true)) []
      = (Ok config,
         [] ++ [patch_request
                  [("mfa", PDict [("state", PStr "ENABLED")]);
                   ("emailPrivacyConfig",
                    PDict [("enableImprovedEmailPrivacy", PBool true)])]]) /\
    fst (ProjectConfig.multi_factor_config config)
      = (if truthy (PDict [("state", PStr "ENABLED")])
         then Some (MultiFactorServerConfigOf
                      (PDict [("state", PStr "ENABLED")]))
         else None) /\
    fst (ProjectConfig.email_privacy_config config)
      = (if truthy (PDict [("enableImprovedEmailPrivacy", PBool true)])
         then Some (EmailPrivacyServerConfigOf
                      (PDict [("enableImprovedEmailPrivacy", PBool true)]))
         else None).
Proof.
  intro echo.
  apply (update_then_read_back Demo.handle_auth_backend_error echo
           (Demo.MultiFactor "ENABLED") (Demo.EmailPrivacy true)
           (PDict [("state", PStr "ENABLED")])
           (PDict [("enableImprovedEmailPrivacy", PBool true)]) []);
    reflexivity.
Defined.

Lemma base_url_determines_project_witness :
  base_url (client (__init__ "6.2.0" (AppOf tt (Some "demo-project"))))
    = "https://identitytoolkit.googleapis.com/v2/projects/demo-project/config"
  /\ "demo-project" = "demo-project".
Proof.
  split; [reflexivity|].
  apply (base_url_determines_project "6.2.0" "6.3.0"
           (AppOf tt (Some "demo-project")) (AppOf tt (Some "demo-project"))
           "demo-project" "demo-project");
    reflexivity.
Defined.
